(** * map_repo_urls.py: a shallow embedding and its properties

    The script reads service metadata from JSON files, walks the
    [codeRepositories] of each and runs a command template on every
    repository url.  The embedding follows [utils/map_repo_urls.py]
    function by function: Python values as an inductive type, exceptions
    as an error result, generators as the list of things they do before
    they end, and the outside world (files, the shell, the log, standard
    output) as a state that is threaded through together with a trace of
    events. *)

From Stdlib Require Import List String Ascii ZArith Bool Arith Lia DecimalString Sorted.
Import ListNotations.
Open Scope string_scope.

#[local] Set Warnings "-register-all".

(** ** Python values and the builtins the script uses *)

Module Py.

(** What [json.load] can return.  A [float] is kept as the two things the
    script can observe of it: whether it is non-zero (its truth value) and
    its [repr].  A [dict] keeps its items in insertion order; [json.load]
    builds dicts with pairwise different keys. *)
Inductive value : Type :=
| None
| Bool (b : bool)
| Int (z : Z)
| Float (nonzero : bool) (repr : string)
| Str (s : string)
| List (items : list value)
| Dict (items : list (string * value)).

(** The exceptions that can reach the top level of the script. *)
Inductive exn : Type :=
| StopIteration
| RuntimeError
| AttributeError
| TypeError
| OSError
| JSONDecodeError
| ValueError
| UnicodeEncodeError.

Inductive result (A : Type) : Type :=
| Ok (a : A)
| Raise (e : exn).
Arguments Ok {A} a.
Arguments Raise {A} e.

Definition bind {A B : Type} (r : result A) (k : A -> result B) : result B :=
  match r with
  | Ok a => k a
  | Raise e => Raise e
  end.

(** [bool(v)], as used by [not v] and [v or w]. *)
Definition truthy (v : value) : bool :=
  match v with
  | None => false
  | Bool b => b
  | Int z => negb (z =? 0)%Z
  | Float nonzero _ => nonzero
  | Str s => negb (s =? "")
  | List items => match items with [] => false | _ :: _ => true end
  | Dict items => match items with [] => false | _ :: _ => true end
  end.

(** [a or b]: the first operand when it is true, the second otherwise. *)
Definition or_ (a b : value) : value := if truthy a then a else b.

Fixpoint lookup (key : string) (items : list (string * value)) : option value :=
  match items with
  | [] => Datatypes.None
  | (k, v) :: rest => if k =? key then Some v else lookup key rest
  end.

(** [d.get(key, default)]; only a [dict] has the method. *)
Definition get (d : value) (key : string) (default : value) : result value :=
  match d with
  | Dict items =>
      match lookup key items with
      | Some v => Ok v
      | Datatypes.None => Ok default
      end
  | _ => Raise AttributeError
  end.

Fixpoint chars (s : string) : list value :=
  match s with
  | EmptyString => []
  | String c rest => Str (String c EmptyString) :: chars rest
  end.

(** The elements a [for] loop (or [enumerate]) draws from [v]: the items
    of a list, the keys of a dict, the characters of a string; the other
    values are not iterable. *)
Definition iter (v : value) : result (list value) :=
  match v with
  | List items => Ok items
  | Dict items => Ok (map (fun kv => Str (fst kv)) items)
  | Str s => Ok (chars s)
  | _ => Raise TypeError
  end.

(** *** Strings *)

Fixpoint startswith (s p : string) {struct p} : bool :=
  match p with
  | EmptyString => true
  | String a p' =>
      match s with
      | EmptyString => false
      | String b s' => Ascii.eqb a b && startswith s' p'
      end
  end.

(** [occurs p s]: [p in s]. *)
Fixpoint occurs (p s : string) : bool :=
  startswith s p ||
  match s with
  | EmptyString => false
  | String _ s' => occurs p s'
  end.

(** The number of positions of [s] at which [p] starts. *)
Fixpoint occurrences (p s : string) : nat :=
  (if startswith s p then 1 else 0) +
  match s with
  | EmptyString => 0
  | String _ s' => occurrences p s'
  end.

(** The scan of [str.replace] for a non-empty [old]: after a match the
    rest of the matched characters is skipped, so that matches are found
    left to right and do not overlap, and [new] is never scanned. *)
Fixpoint replace_scan (old new : string) (skip : nat) (s : string) : string :=
  match s with
  | EmptyString => EmptyString
  | String c s' =>
      match skip with
      | S k => replace_scan old new k s'
      | O =>
          if startswith s old
          then new ++ replace_scan old new (String.length old - 1) s'
          else String c (replace_scan old new 0 s')
      end
  end.

Fixpoint interleave (new s : string) : string :=
  match s with
  | EmptyString => new
  | String c s' => new ++ String c (interleave new s')
  end.

(** [s.replace(old, new)].  An empty [old] matches before every character
    and at the end. *)
Definition replace (s old new : string) : string :=
  match old with
  | EmptyString => interleave new s
  | String _ _ => replace_scan old new 0 s
  end.

(** [", ".join(parts)] and the like. *)
Definition join (sep : string) (parts : list string) : string :=
  String.concat sep parts.

(** *** [str] and [repr] *)

Definition quote1 : ascii := ascii_of_nat 39.
Definition quote2 : ascii := ascii_of_nat 34.
Definition backslash : ascii := ascii_of_nat 92.

Definition hex_digit (n : nat) : ascii :=
  nth n (list_ascii_of_string "0123456789abcdef") "0"%char.

(** A string is the UTF-8 encoding of a Python [str].  [repr] works on
    the characters of the [str], so it has to read the bytes as code
    points, and for the ones from 128 on it asks the Unicode database of
    the interpreter whether they are printable: the table [isprintable]
    is what [str.isprintable] says of one character. *)
Class Unicode : Type := {
  isprintable : N -> bool
}.

Definition byte (c : ascii) : N := N_of_ascii c.

Definition is_continuation (c : ascii) : bool :=
  (128 <=? byte c)%N && (byte c <? 192)%N.

Definition payload (c : ascii) : N := (byte c - 128)%N.

(** The code point at the start of [s] and the number of bytes that
    encode it.  A byte that does not start a complete UTF-8 sequence (no
    encoded [str] has one) is taken for a character of its own. *)
Definition decode (s : string) : N * nat :=
  match s with
  | EmptyString => (0%N, 0)
  | String b0 s1 =>
      let n0 := byte b0 in
      let alone := (n0, 1) in
      if (n0 <? 192)%N then alone
      else
        match s1 with
        | String b1 s2 =>
            if negb (is_continuation b1) then alone
            else if (n0 <? 224)%N
            then (((n0 - 192) * 64 + payload b1)%N, 2)
            else
              match s2 with
              | String b2 s3 =>
                  if negb (is_continuation b2) then alone
                  else if (n0 <? 240)%N
                  then ((((n0 - 224) * 64 + payload b1) * 64 + payload b2)%N, 3)
                  else
                    match s3 with
                    | String b3 _ =>
                        if negb (is_continuation b3) || (248 <=? n0)%N then alone
                        else (((((n0 - 240) * 64 + payload b1) * 64 + payload b2) * 64
                               + payload b3)%N, 4)
                    | EmptyString => alone
                    end
              | EmptyString => alone
              end
        | EmptyString => alone
        end
  end.

(** [n] in [width] hexadecimal digits. *)
Fixpoint hex (width : nat) (n : N) : string :=
  match width with
  | O => EmptyString
  | S k => hex k (n / 16)%N ++ String (hex_digit (N.to_nat (n mod 16)%N)) EmptyString
  end.

(** The escape of a character that is not printable. *)
Definition escape (point : N) : string :=
  if (point <? 256)%N then String backslash (String "x" (hex 2 point))
  else if (point <? 65536)%N then String backslash (String "u" (hex 4 point))
  else String backslash (String "U" (hex 8 point)).

(** One ASCII character of the [repr] of a string delimited by [q]. *)
Definition repr_char (q c : ascii) : string :=
  let n := nat_of_ascii c in
  if Ascii.eqb c q || Ascii.eqb c backslash then String backslash (String c EmptyString)
  else if (n =? 9)%nat then String backslash "t"
  else if (n =? 10)%nat then String backslash "n"
  else if (n =? 13)%nat then String backslash "r"
  else if (n <? 32)%nat || (n =? 127)%nat then escape (N.of_nat n)
  else String c EmptyString.

Fixpoint has_char (c : ascii) (s : string) : bool :=
  match s with
  | EmptyString => false
  | String d s' => Ascii.eqb c d || has_char c s'
  end.

Definition str_int (z : Z) : string := NilZero.string_of_int (Z.to_int z).

Section Repr.

Context {U : Unicode}.

(** The [repr] of the character at the start of [String c s'], and the
    number of bytes the character takes. *)
Definition repr_point (q c : ascii) (s' : string) : string * nat :=
  let '(point, len) := decode (String c s') in
  if (point <? 128)%N then (repr_char q c, 1)
  else if isprintable point then (substring 0 len (String c s'), len)
  else (escape point, len).

(** The characters of a string one after the other; [skip] counts the
    bytes still to pass of the character that was handled last. *)
Fixpoint repr_chars (q : ascii) (skip : nat) (s : string) : string :=
  match s with
  | EmptyString => EmptyString
  | String c s' =>
      match skip with
      | S k => repr_chars q k s'
      | O =>
          let '(text, len) := repr_point q c s' in
          text ++ repr_chars q (len - 1) s'
      end
  end.

(** [repr(s)] for a string: single quotes unless the string has a single
    quote and no double quote. *)
Definition repr_str (s : string) : string :=
  let q := if has_char quote1 s && negb (has_char quote2 s) then quote2 else quote1 in
  String q (repr_chars q 0 s ++ String q EmptyString).

Fixpoint repr (v : value) : string :=
  match v with
  | None => "None"
  | Bool true => "True"
  | Bool false => "False"
  | Int z => str_int z
  | Float _ r => r
  | Str s => repr_str s
  | List items => "[" ++ join ", " (map repr items) ++ "]"
  | Dict items =>
      "{" ++ join ", " (map (fun kv => repr_str (fst kv) ++ ": " ++ repr (snd kv)) items) ++ "}"
  end.

(** [str(v)], which is also what a [{}] field of [str.format] inserts. *)
Definition str (v : value) : string :=
  match v with
  | Str s => s
  | _ => repr v
  end.

End Repr.

End Py.

Import Py (Ok, Raise).

(** ** Generators

    A generator of the script does no input or output of its own apart
    from logging, so it is described by what it does when it is driven to
    its end: the warnings it logs and the values it yields, in order, and
    how its body ends. *)

Inductive gen_item : Type :=
| GWarn (msg : string)
| GYield (v : Py.value).

Inductive gen_end : Type :=
| GReturn
| GRaise (e : Py.exn).

Definition generator : Type := (list gen_item * gen_end)%type.

Definition gen_raise (e : Py.exn) : generator := ([], GRaise e).

Definition gen_cons (i : gen_item) (g : generator) : generator :=
  (i :: fst g, snd g).

Fixpoint yields (items : list gen_item) : list Py.value :=
  match items with
  | [] => []
  | GYield v :: rest => v :: yields rest
  | GWarn _ :: rest => yields rest
  end.

Fixpoint warnings (items : list gen_item) : list string :=
  match items with
  | [] => []
  | GWarn msg :: rest => msg :: warnings rest
  | GYield _ :: rest => warnings rest
  end.

(** How the end of a generator body reaches the [for] loop that drives
    it.  An exception leaves the loop as it is, except [StopIteration]:
    with PEP 479 (the behaviour of Python from 3.7 on) it is turned into a
    [RuntimeError]; before (Python 3.5 and 3.6, the other versions that
    have [subprocess.run]) the loop took it for the end of the
    iteration. *)
Definition gen_close (pep479 : bool) (fin : gen_end) : gen_end :=
  match fin with
  | GRaise Py.StopIteration => if pep479 then GRaise Py.RuntimeError else GReturn
  | _ => fin
  end.

(** ** The pure part of the script *)

(** [get_service_name(service_meta, fallback)] *)
Definition get_service_name (service_meta fallback : Py.value) : Py.result Py.value :=
  Py.bind (Py.get service_meta "service" Py.None) (fun service =>
  if Py.truthy service then Ok service else
  Py.bind (Py.get service_meta "serviceKey" Py.None) (fun serviceKey =>
  Ok (Py.or_ serviceKey fallback))).

(** The default of the [fallback] argument. *)
Definition unnamed : Py.value := Py.Str "unnamed".

(** [args.cmd.replace("{}", repo_url)]: [args.cmd] is [None] when [-c] is
    not given, and [str.replace] wants a string. *)
Definition cmd_replace (cmd : option string) (repo_url : Py.value) : Py.result string :=
  match cmd with
  | Datatypes.None => Raise Py.AttributeError
  | Some template =>
      match repo_url with
      | Py.Str url => Ok (Py.replace template "{}" url)
      | _ => Raise Py.TypeError
      end
  end.

Section Extractor.

Context {U : Py.Unicode}.

Definition no_repos_msg (service_name : Py.value) : string :=
  "No codeRepositories found for service " ++ Py.str service_name.

Definition no_url_msg (service_name : Py.value) (i : nat) : string :=
  "No url found for repo " ++ Py.str service_name
    ++ " in service " ++ Py.str (Py.Int (Z.of_nat i)).

(** The loop of [iter_repo_urls] over [enumerate(...)], from index [i]. *)
Fixpoint repo_loop (service_name : Py.value) (i : nat) (repos : list Py.value)
  : generator :=
  match repos with
  | [] => ([], GReturn)
  | repo :: rest =>
      match Py.get repo "url" Py.None with
      | Raise e => gen_raise e
      | Ok repo_url =>
          if negb (Py.truthy repo_url)
          then gen_cons (GWarn (no_url_msg service_name i))
                        (repo_loop service_name (S i) rest)
          else gen_cons (GYield repo_url) (repo_loop service_name (S i) rest)
      end
  end.

(** [iter_repo_urls(service_meta)], the body as it is written: on missing
    or empty [codeRepositories] it logs and raises [StopIteration]. *)
Definition iter_repo_urls (service_meta : Py.value) : generator :=
  match Py.get service_meta "codeRepositories" (Py.List []) with
  | Raise e => gen_raise e
  | Ok repos =>
      match get_service_name service_meta unnamed with
      | Raise e => gen_raise e
      | Ok service_name =>
          if negb (Py.truthy repos)
          then ([GWarn (no_repos_msg service_name)], GRaise Py.StopIteration)
          else
            match Py.bind (Py.get service_meta "codeRepositories" (Py.List [])) Py.iter with
            | Raise e => gen_raise e
            | Ok entries => repo_loop service_name 0 entries
            end
      end
  end.

End Extractor.

(** ** The logger *)

Definition NOTSET : Z := 0.
Definition WARNING : Z := 30.
Definition ERROR : Z := 40.

(** [logging.basicConfig()] leaves the root logger at [WARNING]; a logger
    whose own level is [NOTSET] takes the level of the root. *)
Definition getEffectiveLevel (level : Z) : Z :=
  if (level =? NOTSET)%Z then WARNING else level.

Definition isEnabledFor (logger_level level : Z) : bool :=
  (getEffectiveLevel logger_level <=? level)%Z.

(** ** What a run does *)

Inductive event : Type :=
| JsonLoad (path : string) (r : Py.result Py.value)
| Warning (msg : string)
| Stdout (line : string)
| Subprocess (cmd : string).

Definition is_warning (ev : event) : bool :=
  match ev with Warning _ => true | _ => false end.

Definition not_warning (ev : event) : bool := negb (is_warning ev).



(** The metadata objects that were loaded, and the paths that were tried. *)
Fixpoint loaded (t : list event) : list Py.value :=
  match t with
  | [] => []
  | JsonLoad _ (Ok v) :: rest => v :: loaded rest
  | _ :: rest => loaded rest
  end.

Fixpoint opened (t : list event) : list string :=
  match t with
  | [] => []
  | JsonLoad path _ :: rest => path :: opened rest
  | _ :: rest => opened rest
  end.

(** The options of the command line, as [parse_args] returns them. *)
Record Args : Type := {
  cmd : option string;
  dry_run : bool;
  quiet : bool;
  json_files : list string
}.

(** The exit status of the interpreter: an uncaught exception gives 1. *)
Definition exit_status (r : Py.result unit) : Z :=
  match r with
  | Ok _ => 0
  | Raise _ => 1
  end.

(** The world outside the script: [json_load path w] is what
    [json.load(open(path, "r"))] gives in [w].  [subprocess_run cmd w] is
    what [subprocess.run(cmd, universal_newlines=True, shell=True)] does
    in [w]: either the shell runs [cmd] to its end, and the call returns
    in the world the child has left with the return code of the child, or
    the command cannot be handed to a shell (it holds a NUL byte, it is
    too long, it cannot be encoded), and the call raises with no child
    started and the world as it was.  Standard output and the log take
    every line that is written to them. *)
Class Host : Type := {
  World : Type;
  json_load : string -> World -> Py.result Py.value;
  subprocess_run : string -> World -> Py.result (World * Z)
}.

Section Script.

Context {U : Py.Unicode} {host : Host}.

Definition M (A : Type) : Type := World -> list event * Py.result A * World.

Definition ret {A : Type} (a : A) : M A := fun w => ([], Ok a, w).

Definition raise {A : Type} (e : Py.exn) : M A := fun w => ([], Raise e, w).

Definition lift {A : Type} (r : Py.result A) : M A := fun w => ([], r, w).

Definition emit (ev : event) : M unit := fun w => ([ev], Ok tt, w).

Definition bind {A B : Type} (m : M A) (k : A -> M B) : M B := fun w =>
  let '(t1, r1, w1) := m w in
  match r1 with
  | Ok a => let '(t2, r2, w2) := k a w1 in ((t1 ++ t2)%list, r2, w2)
  | Raise e => (t1, Raise e, w1)
  end.

Notation "x <- m ;; k" := (bind m (fun x => k))
  (at level 61, m at next level, right associativity).

(** [logger.warn(msg)] on a logger whose level is [logger_level]. *)
Definition logger_warn (logger_level : Z) (msg : string) : M unit :=
  if isEnabledFor logger_level WARNING then emit (Warning msg) else ret tt.

(** A [for] loop over a generator: the loop body runs at each yield, the
    warnings are logged in between, and an exception of the loop body
    leaves the generator where it is. *)
Fixpoint for_items (logger_level : Z) (items : list gen_item) (fin : gen_end)
  (body : Py.value -> M unit) : M unit :=
  match items with
  | [] => match fin with GReturn => ret tt | GRaise e => raise e end
  | GWarn msg :: rest =>
      _ <- logger_warn logger_level msg ;; for_items logger_level rest fin body
  | GYield v :: rest =>
      _ <- body v ;; for_items logger_level rest fin body
  end.

Definition for_in (pep479 : bool) (logger_level : Z) (g : generator)
  (body : Py.value -> M unit) : M unit :=
  for_items logger_level (fst g) (gen_close pep479 (snd g)) body.

(** [for service_meta in iter_service_metadata(files): body]: one file is
    opened and parsed per turn of the loop, and a failure to do so leaves
    the loop. *)
Fixpoint iter_service_metadata (service_json_metadata_files : list string)
  (body : Py.value -> M unit) : M unit :=
  match service_json_metadata_files with
  | [] => ret tt
  | service_file :: rest =>
      service_meta <- (fun w => let r := json_load service_file w in
                                ([JsonLoad service_file r], r, w)) ;;
      _ <- body service_meta ;;
      iter_service_metadata rest body
  end.

(** [run_command_on_repo(cmd, dry_run)]; the [CompletedProcess] that
    [subprocess.run] returns is dropped, and an exception of
    [subprocess.run] is not caught.  The event [Subprocess cmd] stands
    for a shell that has run [cmd]. *)
Definition run_command_on_repo (cmd : string) (dry_run : bool) : M unit :=
  if dry_run
  then emit (Stdout ("would run " ++ Py.repr (Py.Str cmd)))
  else fun w =>
         match subprocess_run cmd w with
         | Ok (w', _) => ([Subprocess cmd], Ok tt, w')
         | Raise e => ([], Raise e, w)
         end.

(** The body of the inner loop of [main]. *)
Definition on_repo_url (args : Args) (service_meta repo_url : Py.value) : M unit :=
  service_name <- lift (get_service_name service_meta unnamed) ;;
  command <- lift (cmd_replace (cmd args) repo_url) ;;
  run_command_on_repo command (dry_run args).

(** [main()], after [parse_args()] has returned [args]. *)
Definition main (pep479 : bool) (args : Args) : M unit :=
  let logger_level := if quiet args then ERROR else NOTSET in
  iter_service_metadata (json_files args) (fun service_meta =>
    for_in pep479 logger_level (iter_repo_urls service_meta)
      (on_repo_url args service_meta)).

(** *** Reading a run *)

Definition trace {A : Type} (x : list event * Py.result A * World) : list event :=
  fst (fst x).

Definition outcome {A : Type} (x : list event * Py.result A * World) : Py.result A :=
  snd (fst x).

Definition final {A : Type} (x : list event * Py.result A * World) : World :=
  snd x.

(** A run with its warnings taken out of the trace. *)
Definition hushed {A : Type} (x : list event * Py.result A * World)
  : list event * Py.result A * World :=
  (filter not_warning (fst (fst x)), snd (fst x), snd x).


End Script.

(** ** A concrete world, for running the script on examples

    The files are a table from paths to what loading them gives; a path
    that is not in the table cannot be opened.  The shell leaves the files
    alone; a command with a NUL byte cannot be started ([ValueError]:
    embedded null byte), every other command runs and succeeds. *)

Module Files.

(** The printable characters up to U+00FF: all but the controls U+0080 to
    U+009F, the no-break space U+00A0 and the soft hyphen U+00AD.  The
    examples have no character behind U+00FF. *)
Definition latin1 : Py.Unicode :=
  {| Py.isprintable := fun point =>
       negb ((128 <=? point)%N && (point <=? 160)%N) && negb (point =? 173)%N
       && (point <? 256)%N |}.

Definition table : Type := list (string * Py.result Py.value).

Fixpoint load (path : string) (w : table) : Py.result Py.value :=
  match w with
  | [] => Raise Py.OSError
  | (p, r) :: rest => if p =? path then r else load path rest
  end.

Definition host : Host :=
  {| World := table;
     json_load := load;
     subprocess_run := fun command w =>
       if Py.has_char Ascii.zero command then Raise Py.ValueError else Ok (w, 0%Z) |}.

Definition run (pep479 : bool) (args : Args) (w : table)
  : list event * Py.result unit * table :=
  main (U := latin1) (host := host) pep479 args w.

(** [{"service": "Foo", "codeRepositories": [{"url": "https://a.git"}, {}]}] *)
Definition foo : Py.value :=
  Py.Dict [("service", Py.Str "Foo");
           ("codeRepositories",
            Py.List [Py.Dict [("url", Py.Str "https://a.git")]; Py.Dict []])].

(** [{"service": "Tiles"}] *)
Definition tiles : Py.value := Py.Dict [("service", Py.Str "Tiles")].

(** [{"serviceKey": "bar", "codeRepositories": [{"url": "https://b.git"}]}] *)
Definition bar : Py.value :=
  Py.Dict [("serviceKey", Py.Str "bar");
           ("codeRepositories", Py.List [Py.Dict [("url", Py.Str "https://b.git")]])].


Definition files : table :=
  [("foo.json", Ok foo); ("tiles.json", Ok tiles); ("bar.json", Ok bar);
   ("broken.json", Raise Py.JSONDecodeError)].

End Files.

(** ** The placeholder, in the words of the specification

    The template read as the parts that stand between the occurrences of
    the placeholder: [template.split("{}")]. *)

Definition cons_first (c : ascii) (parts : list string) : list string :=
  match parts with
  | [] => [String c EmptyString]
  | p :: ps => String c p :: ps
  end.

Fixpoint placeholder_parts (template : string) : list string :=
  match template with
  | EmptyString => [EmptyString]
  | String c t' =>
      match t' with
      | String d rest =>
          if Ascii.eqb c "{" && Ascii.eqb d "}"
          then EmptyString :: placeholder_parts rest
          else cons_first c (placeholder_parts t')
      | EmptyString => cons_first c (placeholder_parts t')
      end
  end.

(** ** The repository entries, in the words of the specification *)

Definition is_dict (v : Py.value) : bool :=
  match v with Py.Dict _ => true | _ => false end.

Definition is_str (v : Py.value) : bool :=
  match v with Py.Str _ => true | _ => false end.

(** The [url] field of an entry, [None] when the entry has none. *)
Definition url_of (entry : Py.value) : Py.value :=
  match entry with
  | Py.Dict fields =>
      match Py.lookup "url" fields with
      | Some url => url
      | Datatypes.None => Py.None
      end
  | _ => Py.None
  end.

(** An entry has a url when the field is there and is not empty. *)
Definition has_url (entry : Py.value) : bool := Py.truthy (url_of entry).

(** The urls of the entries that have one, in the order of the entries. *)
Definition urls_of (entries : list Py.value) : list Py.value :=
  map url_of (filter has_url entries).

(** The entries numbered like [enumerate(entries, start)] does. *)
Definition enumerate (start : nat) (entries : list Py.value) : list (nat * Py.value) :=
  combine (seq start (List.length entries)) entries.

(** The 0-based indices of the entries without a url. *)
Definition missing_url_indices (entries : list Py.value) : list nat :=
  map fst (filter (fun ie => negb (has_url (snd ie))) (enumerate 0 entries)).

(** ** Further readings of the script, in plain terms *)

Definition is_list (v : Py.value) : bool :=
  match v with Py.List _ => true | _ => false end.

Definition is_stdout (ev : event) : bool :=
  match ev with Stdout _ => true | _ => false end.

(** The value of a field of a mapping, [None] when it is not there. *)
Definition field (key : string) (items : list (string * Py.value)) : Py.value :=
  match Py.lookup key items with
  | Some v => v
  | Datatypes.None => Py.None
  end.

(** The first of the candidates that is true, [fallback] when none is. *)
Fixpoint first_true (candidates : list Py.value) (fallback : Py.value) : Py.value :=
  match candidates with
  | [] => fallback
  | v :: rest => if Py.truthy v then v else first_true rest fallback
  end.

Fixpoint total_length (parts : list string) : nat :=
  match parts with
  | [] => 0
  | p :: ps => String.length p + total_length ps
  end.





(** The name of a service as it shows in a message. *)
Definition name_text {U : Py.Unicode} (service_name : Py.value) : string :=
  match service_name with
  | Py.Str s => s
  | v => Py.repr v
  end.

(** A number in decimal digits. *)
Definition decimal (n : nat) : string :=
  NilZero.string_of_int (Z.to_int (Z.of_nat n)).


(** ** The runner, in the words of the specification *)

Section Expected.

Context {U : Py.Unicode} {host : Host}.











(** A computation that opens no file. *)
Definition opens_nothing {A : Type} (m : M A) : Prop :=
  forall w, opened (trace (m w)) = [] /\ loaded (trace (m w)) = [].

(** A computation that prints nothing. *)
Definition prints_nothing {A : Type} (m : M A) : Prop :=
  forall w, filter is_stdout (trace (m w)) = [].



End Expected.

(** * Properties *)

(** ** Strings *)

Section Strings.

Lemma string_ind2 (P : string -> Prop) :
  P EmptyString ->
  (forall c, P (String c EmptyString)) ->
  (forall c d s, P s -> P (String d s) -> P (String c (String d s))) ->
  forall s, P s.
Proof.
  intros H0 H1 H2 s.
  assert (H : P s /\ forall c, P (String c s)).
  { induction s as [|d s [IHs IHc]].
    - split; [exact H0 | exact H1].
    - split; [apply IHc | intros c; apply H2; [exact IHs | apply IHc]]. }
  apply H.
Qed.



(** The equations of [replace] for the placeholder. *)
Lemma replace_nil (url : string) : Py.replace EmptyString "{}" url = EmptyString.
Proof. reflexivity. Qed.

Lemma replace_placeholder (url rest : string) :
  Py.replace (String "{" (String "}" rest)) "{}" url = url ++ Py.replace rest "{}" url.
Proof. unfold Py.replace. cbn. reflexivity. Qed.

Lemma replace_other (url : string) (c : ascii) (t : string) :
  Py.startswith (String c t) "{}" = false ->
  Py.replace (String c t) "{}" url = String c (Py.replace t "{}" url).
Proof.
  intros H. unfold Py.replace. cbn [Py.replace_scan]. now rewrite H.
Qed.

Lemma startswith_placeholder (c : ascii) (t : string) :
  Py.startswith (String c t) "{}" = true <->
  exists rest, c = "{"%char /\ t = String "}" rest.
Proof.
  cbn [Py.startswith]. split.
  - intros H. apply andb_true_iff in H as [Hc Ht].
    apply Ascii.eqb_eq in Hc. destruct t as [|d rest]; [discriminate|].
    apply andb_true_iff in Ht as [Hd _]. apply Ascii.eqb_eq in Hd.
    exists rest. now subst.
  - intros [rest [-> ->]]. reflexivity.
Qed.

Lemma placeholder_parts_head (c d : ascii) :
  Ascii.eqb c "{" && Ascii.eqb d "}" = true ->
  c = "{"%char /\ d = "}"%char.
Proof.
  intros H. apply andb_true_iff in H as [Hc Hd].
  now apply Ascii.eqb_eq in Hc; apply Ascii.eqb_eq in Hd.
Qed.

Lemma startswith_other (c d : ascii) (rest : string) :
  Ascii.eqb c "{" && Ascii.eqb d "}" = false ->
  Py.startswith (String c (String d rest)) "{}" = false.
Proof.
  intros H. cbn [Py.startswith]. rewrite andb_true_r.
  rewrite (Ascii.eqb_sym "{" c), (Ascii.eqb_sym "}" d). exact H.
Qed.

Lemma placeholder_parts_step (c d : ascii) (s : string) :
  placeholder_parts (String c (String d s)) =
  if Ascii.eqb c "{" && Ascii.eqb d "}"
  then EmptyString :: placeholder_parts s
  else cons_first c (placeholder_parts (String d s)).
Proof. reflexivity. Qed.

Lemma cons_first_nonempty (c : ascii) (parts : list string) :
  cons_first c parts <> [].
Proof. destruct parts; cbn; discriminate. Qed.

Lemma placeholder_parts_nonempty (t : string) : placeholder_parts t <> [].
Proof.
  destruct t as [|c [|d rest]]; cbn [placeholder_parts].
  - discriminate.
  - apply cons_first_nonempty.
  - destruct (Ascii.eqb c "{" && Ascii.eqb d "}");
      [discriminate | apply cons_first_nonempty].
Qed.

Lemma join_cons_first (sep : string) (c : ascii) (parts : list string) :
  parts <> [] ->
  Py.join sep (cons_first c parts) = String c (Py.join sep parts).
Proof.
  destruct parts as [|p [|q ps]]; [congruence | reflexivity | reflexivity].
Qed.

Lemma join_empty_first (sep : string) (parts : list string) :
  parts <> [] ->
  Py.join sep (EmptyString :: parts) = sep ++ Py.join sep parts.
Proof.
  destruct parts as [|p ps]; [congruence | reflexivity].
Qed.

(** Joining the parts with the placeholder gives the template back. *)
Lemma join_placeholder_parts (t : string) :
  Py.join "{}" (placeholder_parts t) = t.
Proof.
  induction t as [| c | c d s IHs IHd] using string_ind2.
  - reflexivity.
  - reflexivity.
  - rewrite placeholder_parts_step.
    destruct (Ascii.eqb c "{" && Ascii.eqb d "}") eqn:E.
    + apply placeholder_parts_head in E as [-> ->].
      rewrite join_empty_first by apply placeholder_parts_nonempty.
      rewrite IHs. reflexivity.
    + rewrite join_cons_first by apply placeholder_parts_nonempty.
      now rewrite IHd.
Qed.

(** [replace] is [url.join(template.split("{}"))]. *)
Lemma replace_join_parts (url t : string) :
  Py.replace t "{}" url = Py.join url (placeholder_parts t).
Proof.
  induction t as [| c | c d s IHs IHd] using string_ind2.
  - reflexivity.
  - rewrite replace_other; [reflexivity | cbn; apply andb_false_r].
  - rewrite placeholder_parts_step.
    destruct (Ascii.eqb c "{" && Ascii.eqb d "}") eqn:E.
    + apply placeholder_parts_head in E as [-> ->].
      rewrite join_empty_first by apply placeholder_parts_nonempty.
      rewrite replace_placeholder. now rewrite IHs.
    + rewrite join_cons_first by apply placeholder_parts_nonempty.
      rewrite replace_other by now apply startswith_other.
      now rewrite IHd.
Qed.

(** The first part is the start of the template. *)
Lemma placeholder_parts_first (t p : string) (ps : list string) :
  placeholder_parts t = p :: ps ->
  Py.startswith p "}" = true -> Py.startswith t "}" = true.
Proof.
  destruct t as [|c [|d rest]].
  - cbn. intros E. injection E as <- _. discriminate.
  - cbn. intros E. injection E as <- _. intros H. exact H.
  - rewrite placeholder_parts_step.
    destruct (Ascii.eqb c "{" && Ascii.eqb d "}").
    + intros E. injection E as <- _. discriminate.
    + destruct (placeholder_parts (String d rest)) as [|q qs];
        cbn [cons_first]; intros E; injection E as <- _;
        cbn [Py.startswith]; intros H; exact H.
Qed.

(** No part contains the placeholder. *)
Lemma placeholder_parts_free (t : string) :
  Forall (fun p => Py.occurs "{}" p = false) (placeholder_parts t).
Proof.
  induction t as [| c | c d s IHs IHd] using string_ind2.
  - repeat constructor.
  - repeat constructor. cbn. now rewrite andb_false_r.
  - rewrite placeholder_parts_step.
    destruct (Ascii.eqb c "{" && Ascii.eqb d "}") eqn:E.
    + constructor; [reflexivity | exact IHs].
    + destruct (placeholder_parts (String d s)) as [|p ps] eqn:Ep;
        [now apply placeholder_parts_nonempty in Ep|].
      cbn [cons_first]. inversion IHd as [|? ? Hp Hps]; subst.
      constructor; [|exact Hps].
      cbn [Py.occurs]. rewrite Hp, orb_false_r.
      destruct (Py.startswith (String c p) "{}") eqn:Es; [|reflexivity].
      apply startswith_placeholder in Es as [r [-> ->]].
      assert (Hd : Py.startswith (String d s) "}" = true)
        by (apply (placeholder_parts_first _ _ _ Ep); reflexivity).
      cbn [Py.startswith] in Hd. rewrite andb_true_r in Hd.
      apply Ascii.eqb_eq in Hd. subst d. discriminate E.
Qed.

(** There is one part more than there are placeholders in the template. *)
Lemma placeholder_parts_length (t : string) :
  List.length (placeholder_parts t) = S (Py.occurrences "{}" t).
Proof.
  induction t as [| c | c d s IHs IHd] using string_ind2.
  - reflexivity.
  - cbn. now rewrite andb_false_r.
  - rewrite placeholder_parts_step.
    change (Py.occurrences "{}" (String c (String d s)))
      with ((if Py.startswith (String c (String d s)) "{}" then 1 else 0)
            + Py.occurrences "{}" (String d s)).
    destruct (Ascii.eqb c "{" && Ascii.eqb d "}") eqn:E.
    + apply placeholder_parts_head in E as [-> ->].
      cbn [List.length]. rewrite IHs. reflexivity.
    + rewrite (startswith_other c d s E).
      destruct (placeholder_parts (String d s)) as [|p ps] eqn:Ep;
        [now apply placeholder_parts_nonempty in Ep|].
      cbn [cons_first List.length Nat.add] in *. exact IHd.
Qed.

(** Before the first occurrence of the placeholder nothing changes, the
    url is put in its place as it is, and the scan goes on behind it in
    the template. *)
Lemma replace_first_occurrence (url pre post : string) :
  Py.occurs "{}" pre = false ->
  Py.replace (pre ++ "{}" ++ post) "{}" url = pre ++ url ++ Py.replace post "{}" url.
Proof.
  induction pre as [|c pre IH]; intros H.
  - reflexivity.
  - cbn [Py.occurs] in H. apply orb_false_iff in H as [Hs Ho].
    change (String c pre ++ "{}" ++ post) with (String c (pre ++ "{}" ++ post)).
    rewrite replace_other.
    + now rewrite IH.
    + destruct (Py.startswith (String c (pre ++ "{}" ++ post)) "{}") eqn:E;
        [|reflexivity].
      apply startswith_placeholder in E as [r [-> Hr]].
      destruct pre as [|d pre]; [discriminate Hr|].
      cbn [append] in Hr. injection Hr as -> _. discriminate Hs.
Qed.

End Strings.

(** ** The extractor *)

Section Extractor.

Context {U : Py.Unicode}.

Lemma get_service_name_dict (items : list (string * Py.value)) (fallback : Py.value) :
  exists service_name, get_service_name (Py.Dict items) fallback = Ok service_name.
Proof.
  unfold get_service_name, Py.get, Py.bind.
  destruct (Py.lookup "service" items) as [v|].
  - destruct (Py.truthy v); [eauto|].
    destruct (Py.lookup "serviceKey" items); eauto.
  - cbn [Py.truthy]. destruct (Py.lookup "serviceKey" items); eauto.
Qed.

Lemma get_url_dict (entry : Py.value) :
  is_dict entry = true -> Py.get entry "url" Py.None = Ok (url_of entry).
Proof.
  destruct entry; try discriminate. intros _. cbn.
  destruct (Py.lookup "url" items); reflexivity.
Qed.


(** The loop over entries that are all mappings runs to its end; it
    yields the urls that are there and warns with the index of each entry
    that has none. *)
Lemma repo_loop_dicts (service_name : Py.value) (entries : list Py.value) :
  Forall (fun e => is_dict e = true) entries ->
  forall i,
    snd (repo_loop service_name i entries) = GReturn /\
    yields (fst (repo_loop service_name i entries)) = urls_of entries /\
    warnings (fst (repo_loop service_name i entries)) =
      map (no_url_msg service_name)
          (map fst (filter (fun ie => negb (has_url (snd ie))) (enumerate i entries))).
Proof.
  induction 1 as [|e es He Hes IH]; intros i.
  - repeat split.
  - cbn [repo_loop]. rewrite (get_url_dict e He).
    destruct (IH (S i)) as (Hend & Hy & Hw).
    unfold urls_of, enumerate in *. cbn [List.length seq combine filter snd].
    fold (has_url e). destruct (has_url e) eqn:E; cbn [negb].
    + cbn [gen_cons fst snd yields warnings map]. rewrite Hend, Hy, Hw. auto.
    + cbn [gen_cons fst snd yields warnings map]. rewrite Hend, Hy, Hw. auto.
Qed.

Lemma urls_missing_length (entries : list Py.value) :
  forall i,
    List.length (urls_of entries)
    + List.length (map fst (filter (fun ie => negb (has_url (snd ie))) (enumerate i entries)))
    = List.length entries.
Proof.
  unfold urls_of, enumerate.
  induction entries as [|e es IH]; intros i; [reflexivity|].
  cbn [List.length seq combine filter snd map]. specialize (IH (S i)).
  destruct (has_url e); cbn [negb map List.length]; lia.
Qed.

(** On a mapping whose [codeRepositories] is a non-empty list, the body
    is the loop over that list. *)
Lemma iter_repo_urls_list (items : list (string * Py.value))
  (entries : list Py.value) (service_name : Py.value) :
  Py.lookup "codeRepositories" items = Some (Py.List entries) ->
  entries <> [] ->
  get_service_name (Py.Dict items) unnamed = Ok service_name ->
  iter_repo_urls (Py.Dict items) = repo_loop service_name 0 entries.
Proof.
  intros Hl Hne Hn. unfold iter_repo_urls. cbn [Py.get]. rewrite Hl, Hn.
  destruct entries as [|e es]; [congruence|]. reflexivity.
Qed.

(** On a mapping without [codeRepositories], or with an empty one, the
    body logs one warning and raises [StopIteration]. *)
Lemma iter_repo_urls_no_repos (items : list (string * Py.value))
  (service_name : Py.value) :
  match Py.lookup "codeRepositories" items with
  | Some repos => Py.truthy repos = false
  | Datatypes.None => True
  end ->
  get_service_name (Py.Dict items) unnamed = Ok service_name ->
  iter_repo_urls (Py.Dict items) =
    ([GWarn (no_repos_msg service_name)], GRaise Py.StopIteration).
Proof.
  intros Hl Hn. unfold iter_repo_urls. cbn [Py.get]. rewrite Hn.
  destruct (Py.lookup "codeRepositories" items) as [repos|].
  - now rewrite Hl.
  - reflexivity.
Qed.

Lemma no_url_msg_not_no_repos (n m : Py.value) (i : nat) :
  no_url_msg n i <> no_repos_msg m.
Proof. unfold no_url_msg, no_repos_msg. cbn [append]. discriminate. Qed.

Lemma all_missing_indices (entries : list Py.value) :
  Forall (fun e => has_url e = false) entries ->
  forall i,
    map fst (filter (fun ie => negb (has_url (snd ie))) (enumerate i entries))
    = seq i (List.length entries).
Proof.
  unfold enumerate. induction 1 as [|e es He Hes IH]; intros i; [reflexivity|].
  cbn [List.length seq combine filter snd]. rewrite He. cbn [negb map fst].
  now rewrite IH.
Qed.

Lemma all_missing_urls (entries : list Py.value) :
  Forall (fun e => has_url e = false) entries -> urls_of entries = [].
Proof.
  unfold urls_of. induction 1 as [|e es He Hes IH]; [reflexivity|].
  cbn [filter]. now rewrite He.
Qed.

Lemma no_url_msg_text (service_name : Py.value) (index : nat) :
  no_url_msg service_name index
  = "No url found for repo " ++ name_text service_name
    ++ " in service " ++ decimal index.
Proof. destruct service_name; reflexivity. Qed.

(** C3.  For a metadata object whose [codeRepositories] is a non-empty
    list of N entries, M of which have a non-empty [url], the extractor
    runs to its normal end, yields exactly the M urls in the order of the
    entries, and logs exactly N - M warnings: one for each entry without
    a url, in order, each with the text [No url found for repo], the name
    of the service, [in service] and the 0-based index of its entry in
    decimal digits. *)
Theorem iter_repo_urls_yields_and_warnings (items : list (string * Py.value))
  (entries : list Py.value) :
  Py.lookup "codeRepositories" items = Some (Py.List entries) ->
  entries <> [] ->
  Forall (fun e => is_dict e = true) entries ->
  exists service_name out,
    get_service_name (Py.Dict items) unnamed = Ok service_name /\
    iter_repo_urls (Py.Dict items) = (out, GReturn) /\
    yields out = urls_of entries /\
    warnings out
      = map (fun index => "No url found for repo " ++ name_text service_name
                          ++ " in service " ++ decimal index)
            (missing_url_indices entries) /\
    List.length (yields out) = List.length (filter has_url entries) /\
    List.length (warnings out)
      = List.length entries - List.length (filter has_url entries).
Proof.
  intros Hl Hne Hd.
  destruct (get_service_name_dict items unnamed) as [service_name Hn].
  destruct (repo_loop_dicts service_name entries Hd 0) as (Hend & Hy & Hw).
  exists service_name, (fst (repo_loop service_name 0 entries)).
  rewrite (iter_repo_urls_list items entries service_name Hl Hne Hn).
  split; [exact Hn|]. split; [now rewrite <- Hend; destruct (repo_loop _ _ _)|].
  split; [exact Hy|].
  split; [rewrite Hw; apply map_ext; intros index; apply no_url_msg_text|].
  pose proof (urls_missing_length entries 0) as Hlen.
  rewrite Hy, Hw. unfold urls_of in *. rewrite !length_map in *.
  split; [reflexivity | lia].
Qed.

(** C9.  For a metadata object whose [codeRepositories] is a non-empty
    list in which no entry has a non-empty [url], the extractor runs to
    its normal end (on every version of the interpreter), yields nothing,
    logs one missing-url warning per entry with the index of the entry,
    and does not log the warning about missing [codeRepositories]. *)
Theorem iter_repo_urls_all_urls_missing (items : list (string * Py.value))
  (entries : list Py.value) :
  Py.lookup "codeRepositories" items = Some (Py.List entries) ->
  entries <> [] ->
  Forall (fun e => is_dict e = true) entries ->
  Forall (fun e => has_url e = false) entries ->
  exists service_name out,
    get_service_name (Py.Dict items) unnamed = Ok service_name /\
    iter_repo_urls (Py.Dict items) = (out, GReturn) /\
    (forall pep479, gen_close pep479 (snd (iter_repo_urls (Py.Dict items))) = GReturn) /\
    yields out = [] /\
    warnings out = map (no_url_msg service_name) (seq 0 (List.length entries)) /\
    List.length (warnings out) = List.length entries /\
    forall name, ~ In (no_repos_msg name) (warnings out).
Proof.
  intros Hl Hne Hd Hu.
  destruct (get_service_name_dict items unnamed) as [service_name Hn].
  destruct (repo_loop_dicts service_name entries Hd 0) as (Hend & Hy & Hw).
  rewrite (all_missing_urls entries Hu) in Hy.
  rewrite (all_missing_indices entries Hu) in Hw.
  exists service_name, (fst (repo_loop service_name 0 entries)).
  rewrite (iter_repo_urls_list items entries service_name Hl Hne Hn).
  split; [exact Hn|]. split; [now rewrite <- Hend; destruct (repo_loop _ _ _)|].
  split; [intros pep479; now rewrite Hend|].
  split; [exact Hy|]. split; [exact Hw|].
  rewrite Hw. split; [now rewrite length_map, length_seq|].
  intros name Hin. apply in_map_iff in Hin as (i & Hi & _).
  exact (no_url_msg_not_no_repos _ _ _ Hi).
Qed.

End Extractor.

(** ** The quoting of a command *)

Section Quoting.

Context {U : Py.Unicode}.






(** A character from 128 on is copied when the table has it printable
    and escaped otherwise: the no-break space U+00A0, which is the two
    bytes 194 and 160, and is not printable, shows as a backslash and
    [xa0]. *)
Lemma repr_no_break_space :
  Py.repr (Py.Str (String (ascii_of_nat 194) (String (ascii_of_nat 160) EmptyString)))
  = if Py.isprintable 160
    then String Py.quote1
           (String (ascii_of_nat 194) (String (ascii_of_nat 160) (String Py.quote1 "")))
    else String Py.quote1 (String Py.backslash ("xa0" ++ String Py.quote1 "")).
Proof.
  cbn [Py.repr]. unfold Py.repr_str. cbn [Py.has_char Ascii.eqb andb orb negb].
  cbv - [Py.isprintable]. now destruct (Py.isprintable 160).
Qed.

End Quoting.

(** ** The runner and the driver *)

Section Driver.

Context {U : Py.Unicode} {host : Host}.

Lemma loaded_app (t1 t2 : list event) :
  loaded (t1 ++ t2) = (loaded t1 ++ loaded t2)%list.
Proof.
  induction t1 as [|ev t1 IH]; [reflexivity|].
  destruct ev as [p [v|e] | | |]; cbn; now rewrite IH.
Qed.

Lemma opened_app (t1 t2 : list event) :
  opened (t1 ++ t2) = (opened t1 ++ opened t2)%list.
Proof.
  induction t1 as [|ev t1 IH]; [reflexivity|].
  destruct ev; cbn; now rewrite IH.
Qed.

(** The loop body, by cases. *)
Lemma on_repo_url_cases (args : Args) (service_meta repo_url : Py.value) (w : World) :
  on_repo_url args service_meta repo_url w =
  match get_service_name service_meta unnamed with
  | Raise e => ([], Raise e, w)
  | Ok _ =>
      match cmd_replace (cmd args) repo_url with
      | Raise e => ([], Raise e, w)
      | Ok command => run_command_on_repo command (dry_run args) w
      end
  end.
Proof.
  unfold on_repo_url, bind, lift.
  destruct (get_service_name service_meta unnamed) as [n|e]; [|reflexivity].
  destruct (cmd_replace (cmd args) repo_url) as [c|e]; [|reflexivity].
  cbn [app]. destruct (run_command_on_repo c (dry_run args) w) as [[t r] w'].
  reflexivity.
Qed.

Lemma run_command_on_repo_cases (command : string) (dry_run : bool) (w : World) :
  run_command_on_repo command dry_run w =
  if dry_run
  then ([Stdout ("would run " ++ Py.repr (Py.Str command))], Ok tt, w)
  else match subprocess_run command w with
       | Ok (w', _) => ([Subprocess command], Ok tt, w')
       | Raise e => ([], Raise e, w)
       end.
Proof. unfold run_command_on_repo. now destruct dry_run. Qed.

(** The loop body logs nothing and opens nothing, and does not read the
    [quiet] option. *)
Lemma on_repo_url_trace (args : Args) (service_meta repo_url : Py.value) (w : World) :
  let t := fst (fst (on_repo_url args service_meta repo_url w)) in
  filter (fun ev => negb (is_warning ev)) t = t /\ loaded t = [] /\ opened t = [].
Proof.
  rewrite on_repo_url_cases.
  destruct (get_service_name service_meta unnamed); [|now cbn].
  destruct (cmd_replace (cmd args) repo_url) as [command|e]; [|now cbn].
  rewrite run_command_on_repo_cases.
  destruct (dry_run args); [now cbn|].
  now destruct (subprocess_run command w) as [[w' rc]|e'].
Qed.


(** *** Runs that differ in the level of the logger *)

Lemma bind_hushed {A B : Type} (m m' : M A) (k k' : A -> M B) (w : World) :
  m' w = hushed (m w) ->
  (forall a w1, k' a w1 = hushed (k a w1)) ->
  bind m' k' w = hushed (bind m k w).
Proof.
  intros Hm Hk. unfold bind. rewrite Hm.
  destruct (m w) as [[t1 r1] w1]. cbn [hushed fst snd].
  destruct r1 as [a|e]; [|reflexivity].
  rewrite Hk. destruct (k a w1) as [[t2 r2] w2]. unfold hushed. cbn [fst snd].
  now rewrite filter_app.
Qed.

Lemma on_repo_url_hushed (args : Args) (service_meta repo_url : Py.value) (w : World) :
  on_repo_url args service_meta repo_url w =
  hushed (on_repo_url args service_meta repo_url w).
Proof.
  destruct (on_repo_url_trace args service_meta repo_url w) as (H & _).
  cbv zeta in H. unfold hushed, not_warning. rewrite H.
  now destruct (on_repo_url args service_meta repo_url w) as [[t r] w'].
Qed.

Lemma for_items_hushed (items : list gen_item) (fin : gen_end)
  (body : Py.value -> M unit) :
  (forall v w, body v w = hushed (body v w)) ->
  forall w,
    for_items ERROR items fin body w = hushed (for_items NOTSET items fin body w).
Proof.
  intros Hbody. induction items as [|[msg|v] rest IH]; intros w.
  - cbn. now destruct fin.
  - cbn [for_items]. apply bind_hushed; [reflexivity | intros _; apply IH].
  - cbn [for_items]. apply bind_hushed; [apply Hbody | intros _; apply IH].
Qed.

Lemma iter_service_metadata_hushed (files : list string)
  (body body' : Py.value -> M unit) :
  (forall v w, body' v w = hushed (body v w)) ->
  forall w,
    iter_service_metadata files body' w = hushed (iter_service_metadata files body w).
Proof.
  intros Hbody. induction files as [|f rest IH]; intros w; [reflexivity|].
  cbn [iter_service_metadata]. apply bind_hushed; [reflexivity|].
  intros v w1. apply bind_hushed; [apply Hbody | intros _; apply IH].
Qed.

Lemma filter_not_warning_no_warning (t : list event) :
  filter is_warning (filter not_warning t) = [].
Proof.
  induction t as [|ev t IH]; [reflexivity|].
  destruct ev; cbn; assumption.
Qed.

(** *** Dry runs *)





(** *** The monad *)

Lemma bind_ok {A B : Type} (m : M A) (k : A -> M B) (w w1 : World)
  (t1 : list event) (a : A) :
  m w = (t1, Ok a, w1) ->
  bind m k w = ((t1 ++ trace (k a w1))%list, outcome (k a w1), final (k a w1)).
Proof.
  intros H. unfold bind. rewrite H. now destruct (k a w1) as [[t2 r2] w2].
Qed.

Lemma bind_raise {A B : Type} (m : M A) (k : A -> M B) (w w1 : World)
  (t1 : list event) (e : Py.exn) :
  m w = (t1, Raise e, w1) -> bind m k w = (t1, Raise e, w1).
Proof. intros H. unfold bind. now rewrite H. Qed.

Lemma bind_assoc {A B C : Type} (m : M A) (k : A -> M B) (k' : B -> M C) (w : World) :
  bind (bind m k) k' w = bind m (fun a => bind (k a) k') w.
Proof.
  unfold bind. destruct (m w) as [[t1 [a|e]] w1]; [|reflexivity].
  destruct (k a w1) as [[t2 [b|e]] w2]; [|reflexivity].
  destruct (k' b w2) as [[t3 r3] w3]. now rewrite app_assoc.
Qed.

Lemma bind_ext {A B : Type} (m : M A) (k k' : A -> M B) (w : World) :
  (forall a w1, k a w1 = k' a w1) -> bind m k w = bind m k' w.
Proof.
  intros H. unfold bind. destruct (m w) as [[t1 [a|e]] w1]; [|reflexivity].
  now rewrite H.
Qed.


(** *** The loader *)

(** The loop over a list of files is the loop over its first part
    followed, when that ends well, by the loop over the rest. *)
Lemma iter_service_metadata_app (pre rest : list string)
  (body : Py.value -> M unit) (w : World) :
  iter_service_metadata (pre ++ rest) body w =
  bind (iter_service_metadata pre body) (fun _ => iter_service_metadata rest body) w.
Proof.
  revert w. induction pre as [|f pre IH]; intros w.
  - cbn [app iter_service_metadata]. unfold bind, ret.
    now destruct (iter_service_metadata rest body w) as [[t r] w'].
  - cbn [app iter_service_metadata]. rewrite bind_assoc. apply bind_ext.
    intros meta w1. rewrite bind_assoc. apply bind_ext. intros _ w2. apply IH.
Qed.





Lemma iter_repo_urls_not_dict (service_meta : Py.value) :
  is_dict service_meta = false ->
  iter_repo_urls service_meta = gen_raise Py.AttributeError.
Proof. destruct service_meta; try reflexivity. discriminate. Qed.



(** *** The claims about whole runs *)

(** C5.  When the loader reaches a path that cannot be opened, or whose
    contents are not valid JSON, the exception it raises is the outcome of
    the whole run: given that the files before [path] were processed to
    the end, the run over the whole list is that same run followed by the
    failed load and nothing else.  The exit status is not zero, no file
    after [path] is opened, and no warning is logged for the failure. *)
Theorem load_failure_aborts_run (pep479 : bool) (c : option string) (d q : bool)
  (pre post : list string) (path : string) (e : Py.exn) (w w1 : World)
  (t1 : list event) :
  main pep479 {| cmd := c; dry_run := d; quiet := q; json_files := pre |} w
    = (t1, Ok tt, w1) ->
  json_load path w1 = Raise e ->
  let x := main pep479 {| cmd := c; dry_run := d; quiet := q;
                          json_files := pre ++ path :: post |} w in
  x = ((t1 ++ [JsonLoad path (Raise e)])%list, Raise e, w1) /\
  exit_status (outcome x) <> 0%Z /\
  opened (trace x) = (opened t1 ++ [path])%list /\
  filter is_warning (trace x) = filter is_warning t1.
Proof.
  intros Hpre Hload x.
  assert (Hx : x = ((t1 ++ [JsonLoad path (Raise e)])%list, Raise e, w1)).
  { subst x. unfold main in *. cbn [json_files quiet] in *.
    rewrite iter_service_metadata_app.
    erewrite bind_ok by exact Hpre.
    cbn [iter_service_metadata].
    erewrite (bind_raise _ _ w1 w1 [JsonLoad path (Raise e)] e) by now rewrite Hload.
    reflexivity. }
  rewrite Hx. cbn [trace outcome fst snd exit_status].
  rewrite opened_app, filter_app. cbn. rewrite app_nil_r.
  repeat split. discriminate.
Qed.



(** C8.  A run with [-q] logs no warning, and is otherwise the run
    without [-q]: the same events in the same order once the warnings are
    left out, the same outcome (the same uncaught exception, if any) and
    the same final world. *)
Theorem quiet_only_drops_warnings (pep479 : bool) (c : option string) (d : bool)
  (fs : list string) (w : World) :
  let loud := main pep479 {| cmd := c; dry_run := d; quiet := false; json_files := fs |} w in
  let hush := main pep479 {| cmd := c; dry_run := d; quiet := true; json_files := fs |} w in
  filter is_warning (trace hush) = [] /\
  trace hush = filter not_warning (trace loud) /\
  outcome hush = outcome loud /\
  final hush = final loud.
Proof.
  intros loud hush.
  assert (H : hush = hushed loud).
  { subst loud hush. unfold main. cbn [json_files quiet].
    apply iter_service_metadata_hushed. intros service_meta w1.
    unfold for_in. apply for_items_hushed. intros v w2.
    apply on_repo_url_hushed. }
  rewrite H. unfold hushed, trace, outcome, final. cbn [fst snd].
  repeat split. apply filter_not_warning_no_warning.
Qed.


End Driver.

(** ** The substitution of the placeholder *)

Section Substitution.

Context {U : Py.Unicode} {host : Host}.

(** C4.  The command that is run, or printed in dry-run mode, is the
    template with every occurrence of the placeholder replaced by the
    url: the template is its parts joined by the placeholder, no part
    contains the placeholder, there is one part more than there are
    placeholders, and the command is the same parts joined by the url.  The template [echo {} {}] with the url [http://x] gives
    [echo http://x http://x]. *)
Theorem command_is_template_with_placeholders_replaced (template url : string) :
  Py.join "{}" (placeholder_parts template) = template /\
  Forall (fun part => Py.occurs "{}" part = false) (placeholder_parts template) /\
  List.length (placeholder_parts template) = S (Py.occurrences "{}" template) /\
  cmd_replace (Some template) (Py.Str url)
    = Ok (Py.join url (placeholder_parts template)) /\
  (forall dry q fs items w,
     on_repo_url {| cmd := Some template; dry_run := dry; quiet := q; json_files := fs |}
                 (Py.Dict items) (Py.Str url) w
     = run_command_on_repo (Py.join url (placeholder_parts template)) dry w) /\
  Py.replace "echo {} {}" "{}" "http://x" = "echo http://x http://x".
Proof.
  split; [apply join_placeholder_parts|].
  split; [apply placeholder_parts_free|].
  split; [apply placeholder_parts_length|].
  split; [cbn [cmd_replace]; now rewrite replace_join_parts|].
  split; [|reflexivity].
  intros dry q fs items w. rewrite on_repo_url_cases.
  destruct (get_service_name_dict items unnamed) as [n ->].
  cbn [cmd cmd_replace dry_run]. now rewrite replace_join_parts.
Qed.

End Substitution.

(** C10.  The substitution is one pass over the template: up to the first
    placeholder the template is copied, the url is put in the place of
    the placeholder as it is, also when it contains the placeholder
    itself, and the pass goes on in the template behind the placeholder,
    not in the url. *)
Theorem replace_does_not_rescan_url (url pre post : string) :
  Py.occurs "{}" pre = false ->
  Py.replace (pre ++ "{}" ++ post) "{}" url
    = pre ++ url ++ Py.replace post "{}" url.
Proof. apply replace_first_occurrence. Qed.

Lemma replace_does_not_rescan_url_witness :
  Py.replace ("run " ++ "{}" ++ " on {}") "{}" "a{}b"
    = "run " ++ "a{}b" ++ Py.replace " on {}" "{}" "a{}b".
Proof. apply (replace_does_not_rescan_url "a{}b" "run " " on {}"). reflexivity. Defined.

(** ** Runs on the example files *)

(** The examples are read with the table of [Files]. *)
#[global] Existing Instance Files.latin1.

(** With [codeRepositories] missing, what the [for] loop sees of the
    extractor depends on the interpreter: the warning, and then either the
    end of the iteration or a [RuntimeError]. *)
Lemma for_in_no_repos {U : Py.Unicode} {host : Host} (pep479 : bool) (msg : string)
  (body : Py.value -> M unit) (w : World) :
  for_in pep479 NOTSET ([GWarn msg], GRaise Py.StopIteration) body w =
  ([Warning msg], if pep479 then Raise Py.RuntimeError else Ok tt, w).
Proof. destruct pep479; reflexivity. Qed.

(** C1.  On [tiles.json], which has no [codeRepositories], followed by
    [bar.json], a run on Python 3.7 or later logs the warning that names
    the service and then ends with an uncaught [RuntimeError]: exit
    status 1, and [bar.json] is never opened. *)
Theorem no_repos_aborts_run_under_pep479 :
  Files.run true
    {| cmd := Some "echo {}"; dry_run := false; quiet := false;
       json_files := ["tiles.json"; "bar.json"] |} Files.files
  = ([JsonLoad "tiles.json" (Ok Files.tiles);
      Warning "No codeRepositories found for service Tiles"],
     Raise Py.RuntimeError, Files.files)
  /\ exit_status (Raise Py.RuntimeError) = 1%Z.
Proof. split; reflexivity. Qed.

(** The same run on Python 3.5 or 3.6 goes on with [bar.json]. *)
Lemma no_repos_continues_before_pep479 :
  Files.run false
    {| cmd := Some "echo {}"; dry_run := false; quiet := false;
       json_files := ["tiles.json"; "bar.json"] |} Files.files
  = ([JsonLoad "tiles.json" (Ok Files.tiles);
      Warning "No codeRepositories found for service Tiles";
      JsonLoad "bar.json" (Ok Files.bar);
      Subprocess "echo https://b.git"],
     Ok tt, Files.files).
Proof. reflexivity. Qed.

(** C2.  Without [-c], a run on [bar.json], which has one url, prints
    nothing: at the first url it ends with an uncaught [AttributeError],
    exit status 1. *)
Theorem omitted_command_raises_attribute_error :
  (forall pep479,
     Files.run pep479
       {| cmd := Datatypes.None; dry_run := false; quiet := false;
          json_files := ["bar.json"] |} Files.files
     = ([JsonLoad "bar.json" (Ok Files.bar)], Raise Py.AttributeError, Files.files))
  /\ exit_status (Raise Py.AttributeError) = 1%Z.
Proof. split; [intros []; reflexivity | reflexivity]. Qed.


(** ** The theorems at work on the example files *)

Lemma iter_repo_urls_yields_and_warnings_witness :
  exists service_name out,
    get_service_name Files.foo unnamed = Ok service_name /\
    iter_repo_urls Files.foo = (out, GReturn) /\
    yields out = [Py.Str "https://a.git"] /\
    warnings out
      = map (fun index => "No url found for repo " ++ name_text service_name
                          ++ " in service " ++ decimal index) [1] /\
    List.length (yields out) = 1 /\
    List.length (warnings out) = 2 - 1.
Proof.
  apply (iter_repo_urls_yields_and_warnings
           [("service", Py.Str "Foo");
            ("codeRepositories",
             Py.List [Py.Dict [("url", Py.Str "https://a.git")]; Py.Dict []])]
           [Py.Dict [("url", Py.Str "https://a.git")]; Py.Dict []]).
  - reflexivity.
  - discriminate.
  - repeat constructor.
Defined.

Lemma iter_repo_urls_all_urls_missing_witness :
  exists service_name out,
    get_service_name (Py.Dict [("codeRepositories",
                                Py.List [Py.Dict []; Py.Dict [("url", Py.Str "")]])])
                     unnamed = Ok service_name /\
    iter_repo_urls (Py.Dict [("codeRepositories",
                              Py.List [Py.Dict []; Py.Dict [("url", Py.Str "")]])])
      = (out, GReturn) /\
    (forall pep479,
       gen_close pep479
         (snd (iter_repo_urls
                 (Py.Dict [("codeRepositories",
                            Py.List [Py.Dict []; Py.Dict [("url", Py.Str "")]])])))
       = GReturn) /\
    yields out = [] /\
    warnings out = map (no_url_msg service_name) [0; 1] /\
    List.length (warnings out) = 2 /\
    forall name, ~ In (no_repos_msg name) (warnings out).
Proof.
  apply (iter_repo_urls_all_urls_missing
           [("codeRepositories", Py.List [Py.Dict []; Py.Dict [("url", Py.Str "")]])]
           [Py.Dict []; Py.Dict [("url", Py.Str "")]]).
  - reflexivity.
  - discriminate.
  - repeat constructor.
  - repeat constructor.
Defined.

Lemma load_failure_aborts_run_witness :
  let x := Files.run true
             {| cmd := Some "echo {}"; dry_run := false; quiet := false;
                json_files := ["foo.json"] ++ "broken.json" :: ["bar.json"] |}
             Files.files in
  x = (([JsonLoad "foo.json" (Ok Files.foo);
         Subprocess "echo https://a.git";
         Warning "No url found for repo Foo in service 1"]
        ++ [JsonLoad "broken.json" (Raise Py.JSONDecodeError)])%list,
       Raise Py.JSONDecodeError, Files.files) /\
  exit_status (outcome (host := Files.host) x) <> 0%Z /\
  opened (trace (host := Files.host) x)
    = (opened [JsonLoad "foo.json" (Ok Files.foo);
               Subprocess "echo https://a.git";
               Warning "No url found for repo Foo in service 1"]
       ++ ["broken.json"])%list /\
  filter is_warning (trace (host := Files.host) x)
    = filter is_warning [JsonLoad "foo.json" (Ok Files.foo);
                         Subprocess "echo https://a.git";
                         Warning "No url found for repo Foo in service 1"].
Proof.
  apply (load_failure_aborts_run (host := Files.host) true (Some "echo {}") false false
           ["foo.json"] ["bar.json"] "broken.json" Py.JSONDecodeError
           Files.files Files.files).
  - reflexivity.
  - reflexivity.
Defined.


(** * Further properties of the script *)

(** ** The name of a service *)

Section ServiceName.

Lemma get_service_name_first_true_aux (items : list (string * Py.value))
  (fallback : Py.value) :
  get_service_name (Py.Dict items) fallback
  = Ok (first_true [field "service" items; field "serviceKey" items] fallback).
Proof.
  unfold get_service_name, Py.get, Py.bind, Py.or_, field. cbn [first_true].
  destruct (Py.lookup "service" items) as [v|];
    destruct (Py.lookup "serviceKey" items) as [k|]; cbn [Py.truthy];
    try destruct (Py.truthy v); reflexivity.
Qed.

(** X1.  On a mapping, with a fallback that is true (such as the default
    [unnamed]), [get_service_name] does not raise and gives a value that
    is true, so never [None] or an empty string: the fallback, or what
    the mapping has under [service] or [serviceKey]. *)
Theorem get_service_name_never_empty (items : list (string * Py.value))
  (fallback : Py.value) :
  Py.truthy fallback = true ->
  exists service_name,
    get_service_name (Py.Dict items) fallback = Ok service_name /\
    Py.truthy service_name = true /\
    (service_name = fallback \/
     Py.lookup "service" items = Some service_name \/
     Py.lookup "serviceKey" items = Some service_name).
Proof.
  intros Hf. rewrite get_service_name_first_true_aux. eexists. split; [reflexivity|].
  unfold field. cbn [first_true].
  destruct (Py.lookup "service" items) as [v|] eqn:Ev;
    [destruct (Py.truthy v) eqn:Tv; [now auto|]|cbn [Py.truthy]];
    (destruct (Py.lookup "serviceKey" items) as [k|] eqn:Ek;
     [destruct (Py.truthy k) eqn:Tk; now auto | cbn [Py.truthy]; now auto]).
Qed.

Lemma get_service_name_never_empty_witness :
  exists service_name,
    get_service_name Files.bar unnamed = Ok service_name /\
    Py.truthy service_name = true /\
    (service_name = unnamed \/
     Py.lookup "service"
       [("serviceKey", Py.Str "bar");
        ("codeRepositories", Py.List [Py.Dict [("url", Py.Str "https://b.git")]])]
       = Some service_name \/
     Py.lookup "serviceKey"
       [("serviceKey", Py.Str "bar");
        ("codeRepositories", Py.List [Py.Dict [("url", Py.Str "https://b.git")]])]
       = Some service_name).
Proof.
  apply (get_service_name_never_empty
           [("serviceKey", Py.Str "bar");
            ("codeRepositories", Py.List [Py.Dict [("url", Py.Str "https://b.git")]])]
           unnamed).
  reflexivity.
Defined.

(** X2.  On a mapping, the name is the first of [service], [serviceKey]
    that is there and true, in this order, and the fallback when neither
    is: a [service] that is [null], empty or zero gives way to
    [serviceKey].  On anything but a mapping the call raises
    [AttributeError]. *)
Theorem get_service_name_precedence (service_meta fallback : Py.value) :
  get_service_name service_meta fallback =
  match service_meta with
  | Py.Dict items =>
      Ok (first_true [field "service" items; field "serviceKey" items] fallback)
  | _ => Raise Py.AttributeError
  end.
Proof.
  destruct service_meta; try reflexivity. apply get_service_name_first_true_aux.
Qed.

End ServiceName.

(** ** The extractor on metadata that is not as expected *)

Section ExtractorEdges.

Context {U : Py.Unicode}.

(** X3.  When [codeRepositories] is there and true but is not a list, the
    extractor raises before it logs or yields anything: [TypeError] for a
    number or [true], which cannot be iterated, and [AttributeError] for
    a string or a mapping, whose first character or key has no [get]. *)
Theorem iter_repo_urls_repos_not_a_list (items : list (string * Py.value))
  (repos : Py.value) :
  Py.lookup "codeRepositories" items = Some repos ->
  Py.truthy repos = true ->
  is_list repos = false ->
  iter_repo_urls (Py.Dict items)
  = gen_raise (if is_str repos || is_dict repos
               then Py.AttributeError else Py.TypeError).
Proof.
  intros Hl Ht Hn. unfold iter_repo_urls. cbn [Py.get]. rewrite Hl.
  destruct (get_service_name_dict items unnamed) as [n ->].
  rewrite Ht. cbn [negb Py.bind].
  destruct repos as [ | b | z | nz r | s | l | d]; try discriminate; try reflexivity.
  - destruct s as [|c s]; [discriminate|]. reflexivity.
  - destruct d as [|[k v] d]; [discriminate|]. reflexivity.
Qed.

Lemma repo_loop_stops (service_name bad : Py.value) (pre post : list Py.value) :
  Forall (fun e => is_dict e = true) pre ->
  is_dict bad = false ->
  forall i,
    repo_loop service_name i (pre ++ bad :: post)
    = (fst (repo_loop service_name i pre), GRaise Py.AttributeError).
Proof.
  intros Hpre Hbad. induction Hpre as [|e es He Hes IH]; intros i.
  - cbn [app repo_loop]. destruct bad; try discriminate; reflexivity.
  - cbn [app repo_loop]. rewrite (get_url_dict e He), IH.
    destruct (negb (Py.truthy (url_of e))); reflexivity.
Qed.

(** X4.  An entry of [codeRepositories] that is not a mapping ends the
    extractor with [AttributeError] when it is reached: the entries
    before it are yielded or warned about as usual, and the entries
    behind it are not looked at. *)
Theorem iter_repo_urls_stops_at_bad_entry (items : list (string * Py.value))
  (pre post : list Py.value) (bad : Py.value) :
  Py.lookup "codeRepositories" items = Some (Py.List (pre ++ bad :: post)) ->
  Forall (fun e => is_dict e = true) pre ->
  is_dict bad = false ->
  exists service_name out,
    get_service_name (Py.Dict items) unnamed = Ok service_name /\
    iter_repo_urls (Py.Dict items) = (out, GRaise Py.AttributeError) /\
    yields out = urls_of pre /\
    warnings out = map (no_url_msg service_name) (missing_url_indices pre).
Proof.
  intros Hl Hpre Hbad.
  destruct (get_service_name_dict items unnamed) as [service_name Hn].
  destruct (repo_loop_dicts service_name pre Hpre 0) as (_ & Hy & Hw).
  exists service_name, (fst (repo_loop service_name 0 pre)).
  rewrite (iter_repo_urls_list items (pre ++ bad :: post) service_name Hl)
    by (try exact Hn; now destruct pre).
  rewrite (repo_loop_stops service_name bad pre post Hpre Hbad).
  repeat split; assumption.
Qed.

Lemma missing_from (entries : list Py.value) :
  forall start,
    let indices :=
      map fst (filter (fun ie => negb (has_url (snd ie))) (enumerate start entries)) in
    StronglySorted lt indices /\
    forall i, In i indices <->
              start <= i /\
              exists e, nth_error entries (i - start) = Some e /\ has_url e = false.
Proof.
  unfold enumerate. induction entries as [|e es IH]; intros start; cbv zeta.
  - cbn. split; [constructor|]. intros i. split; [tauto|].
    intros (_ & x & Hx & _). now destruct (i - start).
  - cbn [List.length seq combine filter snd]. destruct (IH (S start)) as [Hs Hin].
    assert (Hrest : forall i,
      (start <= i /\ exists x, nth_error (e :: es) (i - start) = Some x /\ has_url x = false)
      <-> ((i = start /\ has_url e = false) \/
           (S start <= i /\ exists x, nth_error es (i - S start) = Some x /\ has_url x = false))).
    { intros i. split.
      - intros (Hle & x & Hx & Hu).
        destruct (Nat.eq_dec i start) as [->|Hne].
        + left. rewrite Nat.sub_diag in Hx. cbn in Hx. now injection Hx as ->.
        + right. split; [lia|]. exists x.
          replace (i - start) with (S (i - S start)) in Hx by lia. now cbn in Hx.
      - intros [[-> Hu] | (Hle & x & Hx & Hu)].
        + split; [lia|]. exists e. now rewrite Nat.sub_diag.
        + split; [lia|]. exists x.
          replace (i - start) with (S (i - S start)) by lia. now cbn. }
    destruct (has_url e) eqn:Eu; cbn [negb map fst].
    + split; [exact Hs|]. intros i. rewrite Hrest, Hin.
      split; [now right | intros [[_ H]|H]; [discriminate | exact H]].
    + split.
      * constructor; [exact Hs|]. apply Forall_forall. intros i Hi.
        apply Hin in Hi. lia.
      * intros i. rewrite Hrest. cbn [In]. rewrite Hin.
        split; (intros [H|H]; [left | right; exact H]); [now subst | now destruct H].
Qed.

(** X5.  On a non-empty list of mappings the warnings of the extractor
    are the texts [No url found for repo], the name of the service,
    [in service] and an index in decimal digits, for strictly increasing
    indices, and an index is warned about exactly when the list has an
    entry at this position and the entry has no url: no entry without url
    is passed over in silence, and no entry with a url is warned about. *)
Theorem iter_repo_urls_warns_exactly_missing (items : list (string * Py.value))
  (entries : list Py.value) :
  Py.lookup "codeRepositories" items = Some (Py.List entries) ->
  entries <> [] ->
  Forall (fun e => is_dict e = true) entries ->
  exists service_name indices,
    get_service_name (Py.Dict items) unnamed = Ok service_name /\
    warnings (fst (iter_repo_urls (Py.Dict items)))
      = map (fun index => "No url found for repo " ++ name_text service_name
                          ++ " in service " ++ decimal index) indices /\
    StronglySorted lt indices /\
    forall i, In i indices <->
              exists e, nth_error entries i = Some e /\ has_url e = false.
Proof.
  intros Hl Hne Hd.
  destruct (get_service_name_dict items unnamed) as [service_name Hn].
  destruct (repo_loop_dicts service_name entries Hd 0) as (_ & _ & Hw).
  destruct (missing_from entries 0) as [Hs Hin].
  eexists service_name, _.
  rewrite (iter_repo_urls_list items entries service_name Hl Hne Hn).
  split; [exact Hn|].
  split; [rewrite Hw; apply map_ext; intros index; apply no_url_msg_text|].
  split; [exact Hs|].
  intros i. rewrite Hin, Nat.sub_0_r. split.
  - intros [_ H]. exact H.
  - intros H. split; [lia | exact H].
Qed.

End ExtractorEdges.

Lemma iter_repo_urls_repos_not_a_list_witness :
  iter_repo_urls (Py.Dict [("codeRepositories", Py.Str "https://a.git")])
  = gen_raise (if is_str (Py.Str "https://a.git") || is_dict (Py.Str "https://a.git")
               then Py.AttributeError else Py.TypeError).
Proof.
  apply (iter_repo_urls_repos_not_a_list
           [("codeRepositories", Py.Str "https://a.git")] (Py.Str "https://a.git"));
    reflexivity.
Defined.

Lemma iter_repo_urls_stops_at_bad_entry_witness :
  exists service_name out,
    get_service_name
      (Py.Dict [("codeRepositories",
                 Py.List ([Py.Dict [("url", Py.Str "https://a.git")]; Py.Dict []]
                          ++ Py.Str "https://b.git"
                          :: [Py.Dict [("url", Py.Str "https://c.git")]]))])
      unnamed = Ok service_name /\
    iter_repo_urls
      (Py.Dict [("codeRepositories",
                 Py.List ([Py.Dict [("url", Py.Str "https://a.git")]; Py.Dict []]
                          ++ Py.Str "https://b.git"
                          :: [Py.Dict [("url", Py.Str "https://c.git")]]))])
      = (out, GRaise Py.AttributeError) /\
    yields out = urls_of [Py.Dict [("url", Py.Str "https://a.git")]; Py.Dict []] /\
    warnings out
      = map (no_url_msg service_name)
            (missing_url_indices [Py.Dict [("url", Py.Str "https://a.git")]; Py.Dict []]).
Proof.
  apply (iter_repo_urls_stops_at_bad_entry
           [("codeRepositories",
             Py.List ([Py.Dict [("url", Py.Str "https://a.git")]; Py.Dict []]
                      ++ Py.Str "https://b.git"
                      :: [Py.Dict [("url", Py.Str "https://c.git")]]))]
           [Py.Dict [("url", Py.Str "https://a.git")]; Py.Dict []]
           [Py.Dict [("url", Py.Str "https://c.git")]]
           (Py.Str "https://b.git")).
  - reflexivity.
  - repeat constructor.
  - reflexivity.
Defined.

Lemma iter_repo_urls_warns_exactly_missing_witness :
  exists service_name indices,
    get_service_name Files.foo unnamed = Ok service_name /\
    warnings (fst (iter_repo_urls Files.foo))
      = map (fun index => "No url found for repo " ++ name_text service_name
                          ++ " in service " ++ decimal index) indices /\
    StronglySorted lt indices /\
    forall i, In i indices <->
              exists e, nth_error [Py.Dict [("url", Py.Str "https://a.git")]; Py.Dict []] i
                        = Some e /\ has_url e = false.
Proof.
  apply (iter_repo_urls_warns_exactly_missing
           [("service", Py.Str "Foo");
            ("codeRepositories",
             Py.List [Py.Dict [("url", Py.Str "https://a.git")]; Py.Dict []])]
           [Py.Dict [("url", Py.Str "https://a.git")]; Py.Dict []]).
  - reflexivity.
  - discriminate.
  - repeat constructor.
Defined.

(** ** Whole runs: what ends them, and how they compose *)

Section DriverEdges.

Context {U : Py.Unicode} {host : Host}.

(** X6.  For every mapping whose [codeRepositories] is missing or not
    true ([null], [false], zero, an empty string, list or mapping), the
    loop of [main] over the extractor never runs its body and leaves the
    world as it is; it logs the one warning with the name of the service
    when the level of the logger lets warnings through, and then ends
    well on Python 3.5 and 3.6 and with [RuntimeError] from Python 3.7
    on. *)
Theorem no_repos_for_loop (pep479 : bool) (level : Z)
  (items : list (string * Py.value)) (body : Py.value -> M unit) (w : World) :
  match Py.lookup "codeRepositories" items with
  | Some repos => Py.truthy repos = false
  | Datatypes.None => True
  end ->
  exists service_name,
    get_service_name (Py.Dict items) unnamed = Ok service_name /\
    for_in pep479 level (iter_repo_urls (Py.Dict items)) body w
    = (if isEnabledFor level WARNING then [Warning (no_repos_msg service_name)] else [],
       if pep479 then Raise Py.RuntimeError else Ok tt,
       w).
Proof.
  intros Hl. destruct (get_service_name_dict items unnamed) as [service_name Hn].
  exists service_name. split; [exact Hn|].
  rewrite (iter_repo_urls_no_repos items service_name Hl Hn).
  unfold for_in. cbn [fst snd gen_close for_items]. unfold bind, logger_warn.
  destruct (isEnabledFor level WARNING), pep479; reflexivity.
Qed.

Lemma main_unfold (pep479 : bool) (c : option string) (d q : bool) (fs : list string) :
  main pep479 {| cmd := c; dry_run := d; quiet := q; json_files := fs |}
  = iter_service_metadata fs (fun service_meta =>
      for_in pep479 (if q then ERROR else NOTSET) (iter_repo_urls service_meta)
        (on_repo_url {| cmd := c; dry_run := d; quiet := q; json_files := [] |}
                     service_meta)).
Proof. reflexivity. Qed.

(** X7.  A file that loads, but not to a mapping (a JSON list, string,
    number, [true], [false] or [null]), ends the run with an uncaught
    [AttributeError] as soon as it has been read: nothing is logged or
    run for it, and no file behind it is opened. *)
Theorem non_mapping_metadata_aborts_run (pep479 : bool) (c : option string) (d q : bool)
  (pre post : list string) (path : string) (service_meta : Py.value) (w w1 : World)
  (t1 : list event) :
  main pep479 {| cmd := c; dry_run := d; quiet := q; json_files := pre |} w
    = (t1, Ok tt, w1) ->
  json_load path w1 = Ok service_meta ->
  is_dict service_meta = false ->
  main pep479 {| cmd := c; dry_run := d; quiet := q;
                 json_files := pre ++ path :: post |} w
  = ((t1 ++ [JsonLoad path (Ok service_meta)])%list, Raise Py.AttributeError, w1).
Proof.
  intros Hpre Hload Hd. rewrite main_unfold in *.
  rewrite iter_service_metadata_app.
  erewrite bind_ok by exact Hpre.
  cbn [iter_service_metadata].
  erewrite (bind_ok _ _ w1 w1 [JsonLoad path (Ok service_meta)] service_meta)
    by now rewrite Hload.
  rewrite (iter_repo_urls_not_dict _ Hd). reflexivity.
Qed.

(** X8.  Files are read one at a time, each in the world that the
    commands for the files before it have left: the run over a list of
    files is the run over its first part and, when that ends well, the
    run over the rest from the world it has reached; when the first part
    ends with an exception, that is the whole run. *)
Theorem main_over_appended_files (pep479 : bool) (c : option string) (d q : bool)
  (pre rest : list string) (w : World) :
  let x1 := main pep479 {| cmd := c; dry_run := d; quiet := q; json_files := pre |} w in
  let x2 := main pep479 {| cmd := c; dry_run := d; quiet := q; json_files := rest |}
                 (final x1) in
  main pep479 {| cmd := c; dry_run := d; quiet := q; json_files := pre ++ rest |} w
  = match outcome x1 with
    | Ok _ => ((trace x1 ++ trace x2)%list, outcome x2, final x2)
    | Raise e => x1
    end.
Proof.
  intros x1 x2. subst x1 x2. rewrite !main_unfold.
  rewrite iter_service_metadata_app. unfold bind at 1.
  destruct (iter_service_metadata pre _ w) as [[t1 [[]|e]] w1];
    cbn [trace outcome final fst snd]; [|reflexivity].
  now destruct (iter_service_metadata rest _ w1) as [[t2 r2] w2].
Qed.

(** *** The files that are opened *)

Lemma bind_opens_nothing {A B : Type} (m : M A) (k : A -> M B) :
  opens_nothing m -> (forall a, opens_nothing (k a)) -> opens_nothing (bind m k).
Proof.
  intros Hm Hk w. unfold bind. destruct (Hm w) as [Ho Hl].
  destruct (m w) as [[t1 [a|e]] w1]; cbn [trace fst snd] in *; [|now split].
  destruct (Hk a w1) as [Ho2 Hl2].
  destruct (k a w1) as [[t2 r2] w2]. cbn [trace fst snd] in *.
  now rewrite opened_app, loaded_app, Ho, Hl, Ho2, Hl2.
Qed.

Lemma for_in_opens_nothing (pep479 : bool) (level : Z) (g : generator)
  (args : Args) (service_meta : Py.value) :
  opens_nothing (for_in pep479 level g (on_repo_url args service_meta)).
Proof.
  unfold for_in. generalize (gen_close pep479 (snd g)) as fin. intros fin.
  induction (fst g) as [|[msg|v] rest IH].
  - cbn. destruct fin; intros w; now split.
  - cbn [for_items]. apply bind_opens_nothing; [|intros _; exact IH].
    unfold logger_warn. destruct (isEnabledFor level WARNING); intros w; now split.
  - cbn [for_items]. apply bind_opens_nothing; [|intros _; exact IH].
    intros w. destruct (on_repo_url_trace args service_meta v w) as (_ & Hl & Ho).
    now split.
Qed.

Lemma iter_service_metadata_opened (body : Py.value -> M unit) :
  (forall service_meta, opens_nothing (body service_meta)) ->
  forall files w,
    let x := iter_service_metadata files body w in
    (exists n, n <= List.length files /\ opened (trace x) = firstn n files) /\
    List.length (opened (trace x)) <= S (List.length (loaded (trace x))) /\
    List.length (loaded (trace x)) <= List.length (opened (trace x)) /\
    (outcome x = Ok tt ->
     opened (trace x) = files /\
     List.length (loaded (trace x)) = List.length files).
Proof.
  intros Hbody. induction files as [|f rest IH]; intros w; cbv zeta.
  - cbn. repeat split; try lia. exists 0. now split.
  - cbn [iter_service_metadata].
    destruct (json_load f w) as [service_meta|e] eqn:El.
    + rewrite (bind_ok _ _ w w [JsonLoad f (Ok service_meta)] service_meta)
        by now rewrite El.
      cbn [trace outcome final fst snd app loaded opened].
      destruct (Hbody service_meta w) as [Ho1 Hl1].
      destruct (body service_meta w) as [[t1 [[]|e]] w1] eqn:Eb;
        cbn [trace fst] in Ho1, Hl1.
      * rewrite (bind_ok _ _ _ _ _ _ Eb). cbn [trace outcome fst snd].
        rewrite opened_app, loaded_app, Ho1, Hl1. cbn [app List.length].
        destruct (IH w1) as ((n & Hn & Hp) & Hle1 & Hle2 & Hok). cbv zeta in *.
        repeat split; try lia.
        -- exists (S n). split; [cbn; lia|]. cbn [firstn]. now rewrite Hp.
        -- destruct (Hok H) as [-> _]. reflexivity.
        -- destruct (Hok H) as [_ ->]. reflexivity.
      * rewrite (bind_raise _ _ _ _ _ _ Eb). cbn [trace outcome fst snd].
        rewrite Ho1, Hl1. cbn [List.length].
        repeat split; try lia; try discriminate.
        exists 1. split; [cbn; lia | reflexivity].
    + rewrite (bind_raise _ _ w w [JsonLoad f (Raise e)] e) by now rewrite El.
      cbn. repeat split; try lia; try discriminate.
      exists 1. split; [lia | reflexivity].
Qed.

Lemma opened_split (a b c d : list event) (path : string) (r : Py.result Py.value) :
  (a ++ JsonLoad path r :: b = c ++ d)%list ->
  opened c = [] ->
  exists a', a = (c ++ a')%list /\ (a' ++ JsonLoad path r :: b = d)%list.
Proof.
  revert a. induction c as [|ev c IH]; intros a H Hc.
  - exists a. now split.
  - destruct a as [|ev' a]; cbn [app] in H; injection H as Hev Hrest.
    + subst ev. discriminate Hc.
    + subst ev'. assert (Hc' : opened c = []) by (destruct ev; [discriminate|exact Hc..]).
      destruct (IH a Hrest Hc') as (a' & -> & Ha'). exists a'. now split.
Qed.

Lemma iter_service_metadata_failed_load_last (body : Py.value -> M unit) :
  (forall service_meta, opens_nothing (body service_meta)) ->
  forall files w t1 t2 path e,
    trace (iter_service_metadata files body w)
      = (t1 ++ JsonLoad path (Raise e) :: t2)%list ->
    t2 = [] /\ outcome (iter_service_metadata files body w) = Raise e.
Proof.
  intros Hbody. induction files as [|f rest IH]; intros w t1 t2 path e.
  - cbn. intros H. now destruct t1.
  - cbn [iter_service_metadata].
    destruct (json_load f w) as [service_meta|e0] eqn:El.
    + rewrite (bind_ok _ _ w w [JsonLoad f (Ok service_meta)] service_meta)
        by now rewrite El.
      cbn [trace outcome final fst snd app].
      destruct (Hbody service_meta w) as [Ho1 _].
      destruct (body service_meta w) as [[tb [[]|e1]] w1] eqn:Eb; cbn [trace fst] in Ho1.
      * rewrite (bind_ok _ _ _ _ _ _ Eb). cbn [trace outcome fst snd].
        intros H. destruct t1 as [|ev t1]; cbn [app] in H; [discriminate H|].
        injection H as _ H. symmetry in H.
        destruct (opened_split _ _ _ _ _ _ H Ho1) as (a' & _ & Ha').
        symmetry in Ha'. exact (IH w1 a' t2 path e Ha').
      * rewrite (bind_raise _ _ _ _ _ _ Eb). cbn [trace outcome fst snd].
        intros H. destruct t1 as [|ev t1]; cbn [app] in H; [discriminate H|].
        injection H as _ H. rewrite H, opened_app in Ho1.
        cbn [opened] in Ho1. now destruct (opened t1).
    + rewrite (bind_raise _ _ w w [JsonLoad f (Raise e0)] e0) by now rewrite El.
      cbn [trace outcome fst snd]. intros H.
      destruct t1 as [|ev [|ev' t1]]; cbn [app] in H; try discriminate H.
      now injection H as <- <- <-.
Qed.

(** X9.  Whatever the options and the contents of the files, a run opens
    the files in the order of the command line, each at most once and
    none passed over: the paths opened are an initial segment of the
    list.  A load that fails is the last thing the run does, and its
    exception is the outcome of the run, so that every file opened before
    it has loaded; a run that ends well has opened and loaded every
    file. *)
Theorem files_opened_in_order (pep479 : bool) (args : Args) (w : World) :
  let x := main pep479 args w in
  (exists n, n <= List.length (json_files args) /\
             opened (trace x) = firstn n (json_files args)) /\
  List.length (opened (trace x)) <= S (List.length (loaded (trace x))) /\
  List.length (loaded (trace x)) <= List.length (opened (trace x)) /\
  (outcome x = Ok tt ->
   opened (trace x) = json_files args /\
   List.length (loaded (trace x)) = List.length (json_files args)) /\
  (forall t1 t2 path e,
     trace x = (t1 ++ JsonLoad path (Raise e) :: t2)%list ->
     t2 = [] /\ outcome x = Raise e).
Proof.
  cbv zeta. unfold main.
  pose proof (iter_service_metadata_opened _
                (fun service_meta =>
                   for_in_opens_nothing pep479 (if quiet args then ERROR else NOTSET)
                     (iter_repo_urls service_meta) args service_meta)
                (json_files args) w) as (H1 & H2 & H3 & H4).
  repeat split; try assumption; try (now apply H4).
  - eapply iter_service_metadata_failed_load_last; [|eassumption].
    intros service_meta. apply for_in_opens_nothing.
  - eapply iter_service_metadata_failed_load_last; [|eassumption].
    intros service_meta. apply for_in_opens_nothing.
Qed.

End DriverEdges.

Lemma no_repos_for_loop_witness :
  exists service_name,
    get_service_name (Py.Dict [("service", Py.Str "Tiles"); ("codeRepositories", Py.None)])
                     unnamed = Ok service_name /\
    for_in (host := Files.host) true ERROR
      (iter_repo_urls (Py.Dict [("service", Py.Str "Tiles"); ("codeRepositories", Py.None)]))
      (fun _ => ret tt) Files.files
    = (if isEnabledFor ERROR WARNING then [Warning (no_repos_msg service_name)] else [],
       Raise Py.RuntimeError, Files.files).
Proof.
  apply (no_repos_for_loop (host := Files.host) true ERROR
           [("service", Py.Str "Tiles"); ("codeRepositories", Py.None)]
           (fun _ => ret tt) Files.files).
  reflexivity.
Defined.

Lemma non_mapping_metadata_aborts_run_witness :
  main (host := Files.host) true
    {| cmd := Some "echo {}"; dry_run := false; quiet := false;
       json_files := ["bar.json"] ++ "list.json" :: ["foo.json"] |}
    (("list.json", Ok (Py.List [Py.Str "https://a.git"])) :: Files.files)
  = (([JsonLoad "bar.json" (Ok Files.bar); Subprocess "echo https://b.git"]
      ++ [JsonLoad "list.json" (Ok (Py.List [Py.Str "https://a.git"]))])%list,
     Raise Py.AttributeError,
     ("list.json", Ok (Py.List [Py.Str "https://a.git"])) :: Files.files).
Proof.
  apply (non_mapping_metadata_aborts_run (host := Files.host) true (Some "echo {}")
           false false ["bar.json"] ["foo.json"] "list.json"
           (Py.List [Py.Str "https://a.git"])).
  - reflexivity.
  - reflexivity.
  - reflexivity.
Defined.

(** ** The inner loop, entry by entry *)

Section InnerLoop.

Context {U : Py.Unicode} {host : Host}.






End InnerLoop.



(** ** Dry runs and real runs *)

Section DryRun.

Context {U : Py.Unicode} {host : Host}.









(** *** What a real run prints *)

Lemma bind_prints_nothing {A B : Type} (m : M A) (k : A -> M B) :
  prints_nothing m -> (forall a, prints_nothing (k a)) -> prints_nothing (bind m k).
Proof.
  intros Hm Hk w. unfold bind. specialize (Hm w).
  destruct (m w) as [[t1 [a|e]] w1]; cbn [trace fst] in *; [|exact Hm].
  specialize (Hk a w1). destruct (k a w1) as [[t2 r2] w2]. cbn [trace fst] in *.
  now rewrite filter_app, Hm, Hk.
Qed.

(** X13.  Without [-n] the script writes nothing to its standard output
    itself, whatever the files hold and however the run ends: what shows
    there comes from the commands. *)
Theorem real_run_prints_nothing (pep479 : bool) (c : option string) (q : bool)
  (fs : list string) (w : World) :
  filter is_stdout
    (trace (main pep479 {| cmd := c; dry_run := false; quiet := q; json_files := fs |} w))
  = [].
Proof.
  revert w. change (prints_nothing
    (main pep479 {| cmd := c; dry_run := false; quiet := q; json_files := fs |})).
  unfold main. cbn [json_files quiet].
  induction fs as [|f rest IH]; [intros w; reflexivity|].
  cbn [iter_service_metadata]. apply bind_prints_nothing; [intros w; reflexivity|].
  intros service_meta. apply bind_prints_nothing; [|intros _; exact IH].
  unfold for_in. generalize (gen_close pep479 (snd (iter_repo_urls service_meta))).
  intros fin. induction (fst (iter_repo_urls service_meta)) as [|[msg|v] items IHi].
  - cbn. destruct fin; intros w; reflexivity.
  - cbn [for_items]. apply bind_prints_nothing; [|intros _; exact IHi].
    unfold logger_warn. destruct (isEnabledFor _ WARNING); intros w; reflexivity.
  - cbn [for_items]. apply bind_prints_nothing; [|intros _; exact IHi].
    intros w. rewrite on_repo_url_cases. cbn [cmd dry_run].
    destruct (get_service_name service_meta unnamed); [|reflexivity].
    destruct (cmd_replace c v) as [command|e]; [|reflexivity].
    rewrite run_command_on_repo_cases.
    now destruct (subprocess_run command w) as [[w' rc]|e].
Qed.

End DryRun.


(** ** More on the substitution *)

Section SubstitutionEdges.

(** X14.  A template without a placeholder is left as it is, whatever the
    url: the same command is run for every url. *)
Theorem replace_without_placeholder (template url : string) :
  Py.occurs "{}" template = false ->
  Py.replace template "{}" url = template.
Proof.
  induction template as [|c t IH]; intros H; [reflexivity|].
  cbn [Py.occurs] in H. apply orb_false_iff in H as [Hs Ho].
  rewrite replace_other by exact Hs. now rewrite IH.
Qed.

Lemma replace_without_placeholder_witness :
  Py.replace "git fetch --all" "{}" "https://a.git" = "git fetch --all".
Proof.
  apply (replace_without_placeholder "git fetch --all" "https://a.git"). reflexivity.
Defined.

Lemma length_append (a b : string) :
  String.length (a ++ b) = String.length a + String.length b.
Proof. induction a as [|c a IH]; cbn; [reflexivity | now rewrite IH]. Qed.

Lemma length_join (sep : string) (parts : list string) :
  parts <> [] ->
  String.length (Py.join sep parts) + String.length sep
  = total_length parts + List.length parts * String.length sep.
Proof.
  induction parts as [|p ps IH]; [congruence|]. intros _.
  destruct ps as [|q ps].
  - cbn. lia.
  - change (Py.join sep (p :: q :: ps)) with (p ++ sep ++ Py.join sep (q :: ps)).
    rewrite !length_append. cbn [total_length List.length Nat.mul] in *.
    specialize (IH ltac:(discriminate)). lia.
Qed.

(** X15.  The length of the command is the length of the template with
    the two characters of each placeholder exchanged for the length of
    the url. *)
Theorem replace_length (template url : string) :
  String.length (Py.replace template "{}" url) + 2 * Py.occurrences "{}" template
  = String.length template + Py.occurrences "{}" template * String.length url.
Proof.
  pose proof (length_join url (placeholder_parts template)
                (placeholder_parts_nonempty template)) as Hu.
  pose proof (length_join "{}" (placeholder_parts template)
                (placeholder_parts_nonempty template)) as Ht.
  rewrite <- replace_join_parts in Hu. rewrite join_placeholder_parts in Ht.
  rewrite placeholder_parts_length in Hu, Ht. cbn [String.length] in Ht. lia.
Qed.

End SubstitutionEdges.

(** ** Runs that end well *)

Section Completion.

Context {U : Py.Unicode} {host : Host}.











End Completion.





(** ** Where the claims about the runner stop *)


